(** * Domain membership checker (src/validators/domain_checker.py)

    A shallow embedding of the [DomainChecker] class and of the module-level
    helper [check_domain_status], followed by the properties of the
    specification that concern them.

    The Python methods talk to Windows through [win32net] and [win32api],
    write to the module logger and keep one attribute, [self.domain_info].
    They are embedded in a state-and-exception monad: the state is the
    checker object together with the records handed to the logger, an
    exception is an outcome of its own, and [try ... except Exception] is a
    handler on that outcome.  The operating system is a record of answers,
    one per API entry point, each being either a value or the exception the
    binding raises.

    What the embedding takes for granted:
    - the bindings raise [pywintypes.error], a subclass of [Exception], so
      every handler of the module catches what they raise;
    - the answers have the shape pywin32 documents: a level-102 dict with
      its [langroup] entry, a pair (name, status) with an integer status,
      strings for the names;
    - handing a record to the logger does not raise;
    - no method changes a dict in place: [self.domain_info] is only ever
      rebound to a new dict literal, so the stored dict is a value here. *)

From stdpp Require Import base option list strings gmap.
From Stdlib Require Import ZArith.

Open Scope string_scope.
Open Scope Z_scope.

(** ** Python values the module handles *)

(** An exception instance; the code only ever looks at [str(e)]. *)
Record PyExc := Exception { str : string }.

(** What a call yields: the value it returns or the exception it raises. *)
Inductive Outcome (A : Type) :=
  | Return (a : A)
  | Raise (e : PyExc).
Arguments Return {A} a.
Arguments Raise {A} e.

(** The dict literal of lines 55-59: its three keys are fixed, so it is a
    record; [join_type] is a Python string, as in the code. *)
Record MembershipRecord := {
  name : string;
  is_domain : bool;
  join_type : string
}.

#[global] Instance MembershipRecord_eq_dec : EqDecision MembershipRecord.
Proof. solve_decision. Defined.

(** ** The logger *)

Inductive Level := INFO | WARNING | ERROR.

#[global] Instance Level_eq_dec : EqDecision Level.
Proof. solve_decision. Defined.

(** One call of [logger.info], [logger.warning] or [logger.error]. *)
Record LogRecord := { levelname : Level; message : string }.

#[global] Instance LogRecord_eq_dec : EqDecision LogRecord.
Proof. solve_decision. Defined.

(** ** The operating system, as the module sees it *)

(** Level-102 workstation information, the dict [win32net.NetWkstaGetInfo]
    returns; the code reads [langroup] only. *)
Record WKSTA_INFO_102 := {
  platform_id : Z;
  computername : string;
  langroup : string;
  ver_major : Z;
  ver_minor : Z;
  lanroot : string;
  logged_on_users : Z
}.

(** [win32netcon.ComputerNameDnsFullyQualified], the COMPUTER_NAME_FORMAT
    member the code passes to [GetComputerNameEx]. *)
Definition ComputerNameDnsFullyQualified : Z := 3.

(** The answers of the four entry points.  [NetGetJoinInformation] returns
    the pair (name, status) of which the code takes component 1. *)
Record OS := {
  NetWkstaGetInfo : PyExc + WKSTA_INFO_102;
  NetGetJoinInformation : PyExc + (string * Z);
  GetComputerName : PyExc + string;
  GetComputerNameEx : Z → PyExc + string
}.

(** ** State and the monad of method bodies *)

(** The instance: its only attribute is [domain_info]. *)
Record DomainChecker := { domain_info : option MembershipRecord }.

(** [__init__], line 28. *)
Definition __init__ : DomainChecker := {| domain_info := None |}.

(** The checker a method runs on ([self]) and the module-level [logger],
    as the list of records it was handed, oldest first. *)
Record World := {
  self : DomainChecker;
  logger : list LogRecord
}.

Definition M (A : Type) : Type := World → Outcome A * World.

#[global] Instance M_ret : MRet M := λ A a w, (Return a, w).

#[global] Instance M_bind : MBind M := λ A B k m w,
  match m w with
  | (Return a, w') => k a w'
  | (Raise e, w') => (Raise e, w')
  end.

(** [try: body except Exception as e: handler e].  Effects of [body] before
    the exception stay. *)
Definition try_except {A} (body : M A) (handler : PyExc → M A) : M A := λ w,
  match body w with
  | (Return a, w') => (Return a, w')
  | (Raise e, w') => handler e w'
  end.

Definition raise {A} (e : PyExc) : M A := λ w, (Raise e, w).

(** A call into [win32net] / [win32api]. *)
Definition os_call {A} (answer : PyExc + A) : M A :=
  match answer with
  | inl e => raise e
  | inr a => mret a
  end.

(** The world with the records [rs] handed to the logger. *)
Definition logged (rs : list LogRecord) (w : World) : World :=
  {| self := self w; logger := logger w ++ rs |}.

(** [logger.info(msg)], [logger.warning(msg)], [logger.error(msg)]. *)
Definition log (lvl : Level) (msg : string) : M unit := λ w,
  (Return tt, logged [{| levelname := lvl; message := msg |}] w).

(** [self.domain_info = d] and the read of [self.domain_info]. *)
Definition set_domain_info (d : option MembershipRecord) : M unit := λ w,
  (Return tt,
   {| self := {| domain_info := d |}; logger := logger w |}).

Definition get_self_domain_info : M (option MembershipRecord) := λ w,
  (Return (domain_info (self w)), w).

(** ** The methods *)

(** The dict literal of lines 85-90. *)
Definition status_map : gmap Z string :=
  <[0 := "Unknown"]> (<[1 := "Unjoined"]> (<[2 := "Workgroup"]>
    (<[3 := "Domain"]> ∅))).

(** Lines 69-96.  [status_map.get(k, 'Unknown')] is the lookup with a
    default. *)
Definition _get_join_status (os : OS) : M string :=
  try_except
    (join_status ← os_call (NetGetJoinInformation os);
     mret (default "Unknown" (status_map !! join_status.2)))
    (λ e,
     log WARNING ("No se pudo obtener NetGetJoinInformation: " ++ str e);;
     mret "Unknown").

(** Lines 30-67.  The record is built and stored only after both
    [NetWkstaGetInfo] and [_get_join_status] have returned. *)
Definition is_domain_joined (os : OS) : M bool :=
  try_except
    (info ← os_call (NetWkstaGetInfo os);
     let workgroup_or_domain := langroup info in
     join_status ← _get_join_status os;
     set_domain_info (Some {|
       name := workgroup_or_domain;
       is_domain := bool_decide (join_status = "Domain");
       join_type := join_status
     |});;
     log INFO ("Estado de la red: " ++ join_status ++ " - Nombre: "
               ++ workgroup_or_domain);;
     d ← get_self_domain_info;
     match d with
     | Some d => mret (is_domain d)
     | None => raise (Exception "'NoneType' object is not subscriptable")
     end)
    (λ e,
     log ERROR ("Error al verificar dominio: " ++ str e);;
     mret false).

(** Lines 98-109. *)
Definition get_domain_info : M (option MembershipRecord) :=
  d ← get_self_domain_info;
  match d with
  | None =>
      log WARNING "Debe ejecutar is_domain_joined() primero";;
      mret None
  | Some _ => mret d
  end.

(** Lines 111-122. *)
Definition get_computer_name (os : OS) : M string :=
  try_except
    (os_call (GetComputerName os))
    (λ e,
     log ERROR ("Error al obtener nombre de computadora: " ++ str e);;
     mret "UNKNOWN").

(** Lines 124-135. *)
Definition get_full_computer_name (os : OS) : M string :=
  try_except
    (os_call (GetComputerNameEx os ComputerNameDnsFullyQualified))
    (λ e,
     log ERROR ("Error al obtener FQDN: " ++ str e);;
     get_computer_name os).

(** ** The module-level helper *)

(** The dict [check_domain_status] returns; its four keys are fixed. *)
Module Status.
Record t := {
  is_domain_joined : bool;
  computer_name : string;
  full_name : string;
  domain_info : option MembershipRecord
}.
End Status.

(** Lines 139-154.  The helper makes a checker of its own; of the state it
    only shares the logger with its caller.  The values of the dict literal
    are evaluated in the order they are written.  The system is taken to
    answer the same way for the length of the helper. *)
Definition check_domain_status (os : OS) (lg : list LogRecord)
  : Outcome Status.t * list LogRecord :=
  let checker := __init__ in
  let run : M Status.t :=
    is_domain ← is_domain_joined os;
    cn ← get_computer_name os;
    fn ← get_full_computer_name os;
    di ← get_domain_info;
    mret {| Status.is_domain_joined := is_domain;
            Status.computer_name := cn;
            Status.full_name := fn;
            Status.domain_info := di |} in
  let '(r, w) := run {| self := checker; logger := lg |} in
  (r, logger w).

(** ** Clients: sequences of method calls on one checker *)

Inductive Call :=
  | call_is_domain_joined
  | call_get_domain_info
  | call_get_computer_name
  | call_get_full_computer_name.

#[global] Instance Call_eq_dec : EqDecision Call.
Proof. solve_decision. Defined.

(** The world after one call, made while the system answers as [os]. *)
Definition perform (os : OS) (c : Call) (w : World) : World :=
  match c with
  | call_is_domain_joined => (is_domain_joined os w).2
  | call_get_domain_info => (get_domain_info w).2
  | call_get_computer_name => (get_computer_name os w).2
  | call_get_full_computer_name => (get_full_computer_name os w).2
  end.

Definition run_calls (cs : list (OS * Call)) (w : World) : World :=
  foldl (λ w oc, perform oc.1 oc.2 w) w cs.

(** A checker just constructed, with the logger as it is at that time. *)
Definition fresh (lg : list LogRecord) : World :=
  {| self := __init__; logger := lg |}.

(** A call that reaches the assignment of line 55. *)
Definition stores (oc : OS * Call) : bool :=
  match oc.2, NetWkstaGetInfo oc.1 with
  | call_is_domain_joined, inr _ => true
  | _, _ => false
  end.

(** ** What the calls compute, read off the system's answers *)

(** An answer of the system that is an exception. *)
Definition fails {A} (answer : PyExc + A) : Prop := ∃ e, answer = inl e.

(** The label [_get_join_status] comes back with. *)
Definition join_label (os : OS) : string :=
  match NetGetJoinInformation os with
  | inl _ => "Unknown"
  | inr js => default "Unknown" (status_map !! js.2)
  end.

(** What [_get_join_status] hands to the logger. *)
Definition join_log (os : OS) : list LogRecord :=
  match NetGetJoinInformation os with
  | inl e => [{| levelname := WARNING;
                 message := "No se pudo obtener NetGetJoinInformation: "
                            ++ str e |}]
  | inr _ => []
  end.

(** The record a call of [is_domain_joined] builds from the workstation
    information [info] and the join status. *)
Definition record_of (os : OS) (info : WKSTA_INFO_102) : MembershipRecord :=
  {| name := langroup info;
     is_domain := bool_decide (join_label os = "Domain");
     join_type := join_label os |}.

(** The short name and what obtaining it logs. *)
Definition short_name (os : OS) : string :=
  match GetComputerName os with
  | inl _ => "UNKNOWN"
  | inr n => n
  end.

Definition short_name_log (os : OS) : list LogRecord :=
  match GetComputerName os with
  | inl e => [{| levelname := ERROR;
                 message := "Error al obtener nombre de computadora: "
                            ++ str e |}]
  | inr _ => []
  end.

(** The same for the fully-qualified name. *)
Definition long_name (os : OS) : string :=
  match GetComputerNameEx os ComputerNameDnsFullyQualified with
  | inl _ => short_name os
  | inr n => n
  end.

Definition long_name_log (os : OS) : list LogRecord :=
  match GetComputerNameEx os ComputerNameDnsFullyQualified with
  | inl e => {| levelname := ERROR;
                message := "Error al obtener FQDN: " ++ str e |}
             :: short_name_log os
  | inr _ => []
  end.

(** The warning of line 106. *)
Definition not_yet_queried : LogRecord :=
  {| levelname := WARNING;
     message := "Debe ejecutar is_domain_joined() primero" |}.

(** The invariant of the data model: a record says "domain" exactly when
    its join type is ['Domain']. *)
Definition consistent (d : MembershipRecord) : Prop :=
  is_domain d = true ↔ join_type d = "Domain".

(** ** Sample systems *)

Definition wksta (group : string) : WKSTA_INFO_102 :=
  {| platform_id := 500; computername := "PC01"; langroup := group;
     ver_major := 10; ver_minor := 0; lanroot := "";
     logged_on_users := 1 |}.

(** A domain member: everything answers. *)
Definition os_corp : OS :=
  {| NetWkstaGetInfo := inr (wksta "CORP");
     NetGetJoinInformation := inr ("CORP", 3);
     GetComputerName := inr "PC01";
     GetComputerNameEx := λ _, inr "PC01.corp.example.com" |}.

(** A workgroup machine. *)
Definition os_workgroup : OS :=
  {| NetWkstaGetInfo := inr (wksta "WORKGROUP");
     NetGetJoinInformation := inr ("WORKGROUP", 2);
     GetComputerName := inr "PC01";
     GetComputerNameEx := λ _, inr "PC01" |}.

Definition access_denied : PyExc :=
  Exception "(5, 'NetWkstaGetInfo', 'Access is denied.')".

Definition interface_unknown : PyExc :=
  Exception "(1717, 'NetGetJoinInformation', 'The interface is unknown.')".

Definition invalid_handle : PyExc :=
  Exception "(6, 'GetComputerName', 'The handle is invalid.')".

Definition bad_parameter : PyExc :=
  Exception "(87, 'GetComputerNameEx', 'The parameter is incorrect.')".

(** The workstation service does not answer; the rest does. *)
Definition os_no_wksta : OS :=
  {| NetWkstaGetInfo := inl access_denied;
     NetGetJoinInformation := inr ("CORP", 3);
     GetComputerName := inr "PC01";
     GetComputerNameEx := λ _, inr "PC01.corp.example.com" |}.

(** Only the join information fails. *)
Definition os_no_join : OS :=
  {| NetWkstaGetInfo := inr (wksta "CORP");
     NetGetJoinInformation := inl interface_unknown;
     GetComputerName := inr "PC01";
     GetComputerNameEx := λ _, inr "PC01.corp.example.com" |}.

(** Only the fully-qualified name fails. *)
Definition os_no_fqdn : OS :=
  {| NetWkstaGetInfo := inr (wksta "CORP");
     NetGetJoinInformation := inr ("CORP", 3);
     GetComputerName := inr "PC01";
     GetComputerNameEx := λ _, inl bad_parameter |}.

(** Neither name query answers. *)
Definition os_no_names : OS :=
  {| NetWkstaGetInfo := inr (wksta "CORP");
     NetGetJoinInformation := inr ("CORP", 3);
     GetComputerName := inl invalid_handle;
     GetComputerNameEx := λ _, inl bad_parameter |}.

(** A status code the table does not list. *)
Definition os_odd_status : OS :=
  {| NetWkstaGetInfo := inr (wksta "CORP");
     NetGetJoinInformation := inr ("CORP", 7);
     GetComputerName := inr "PC01";
     GetComputerNameEx := λ _, inr "PC01.corp.example.com" |}.

(** Two sample clients: one that never queries, and calls that follow a
    query without storing anything. *)
Definition names_first : list (OS * Call) :=
  [(os_corp, call_get_computer_name);
   (os_no_names, call_get_full_computer_name);
   (os_corp, call_get_domain_info)].

Definition failed_then_name : list (OS * Call) :=
  [(os_no_wksta, call_is_domain_joined);
   (os_corp, call_get_full_computer_name)].

(** ** The demonstration script *)

(** The process the script runs in: the world of the methods and what has
    been printed, one entry per [print] call. *)
Record Process := {
  world : World;
  stdout : list string
}.

Definition Script (A : Type) : Type := Process → Outcome A * Process.

#[global] Instance Script_ret : MRet Script := λ A a p, (Return a, p).

#[global] Instance Script_bind : MBind Script := λ A B k m p,
  match m p with
  | (Return a, p') => k a p'
  | (Raise e, p') => (Raise e, p')
  end.

(** A method call on [checker]. *)
Definition call {A} (m : M A) : Script A := λ p,
  let '(r, w) := m (world p) in
  (r, {| world := w; stdout := stdout p |}).

(** [checker = DomainChecker()]. *)
Definition new_checker : Script unit := λ p,
  (Return tt,
   {| world := {| self := __init__; logger := logger (world p) |};
      stdout := stdout p |}).

Definition print (line : string) : Script unit := λ p,
  (Return tt, {| world := world p; stdout := stdout p ++ [line] |}).

(** [d[key]] on what [get_domain_info] returned: a [TypeError] on [None]. *)
Definition subscript (d : option MembershipRecord)
    (key : MembershipRecord → string) : Script string :=
  match d with
  | Some r => mret (key r)
  | None => λ p,
      (Raise (Exception "'NoneType' object is not subscriptable"), p)
  end.

(** [s * n] on a string. *)
Fixpoint str_mul (s : string) (n : nat) : string :=
  match n with
  | O => ""
  | S n => s ++ str_mul s n
  end.

(** The escape [\n]. *)
Definition nl : string := String (Ascii.ascii_of_nat 10) "".

(** Lines 158-192, the body under [if __name__ == "__main__"].  An f-string
    is evaluated before its [print] runs, so a failing subscript prints
    nothing. *)
Definition main (os : OS) : Script unit :=
  print (str_mul "=" 60);;
  print "VERIFICADOR DE DOMINIO - Prueba";;
  print (str_mul "=" 60);;
  new_checker;;
  computer_name ← call (get_computer_name os);
  print (nl ++ "📌 Nombre de la PC: " ++ computer_name);;
  full_name ← call (get_full_computer_name os);
  print ("📌 Nombre completo: " ++ full_name);;
  print (nl ++ "🔍 Verificando conexión a dominio...");;
  is_domain ← call (is_domain_joined os);
  domain_info ← call get_domain_info;
  print (nl ++ str_mul "=" 60);;
  print "RESULTADOS:";;
  print (str_mul "=" 60);;
  (if is_domain : bool then
     print "✅ Esta PC ESTÁ unida a un dominio";;
     n ← subscript domain_info name;
     print ("   Dominio: " ++ n)
   else
     print "❌ Esta PC NO está en un dominio";;
     n ← subscript domain_info name;
     print ("   Workgroup: " ++ n));;
  t ← subscript domain_info join_type;
  print (nl ++ "Tipo de conexión: " ++ t);;
  print (str_mul "=" 60).

(** The script started with an empty output, the logger holding [lg]. *)
Definition run_main (os : OS) (lg : list LogRecord) : Outcome unit * Process :=
  main os {| world := fresh lg; stdout := [] |}.

(** ** Further vocabulary for the properties *)

(** The labels of [status_map]. *)
Definition labels : list string :=
  ["Unknown"; "Unjoined"; "Workgroup"; "Domain"].


(** [os] with another name in the answer of [NetGetJoinInformation]. *)
Definition with_join_name (nm : string) (os : OS) : OS :=
  {| NetWkstaGetInfo := NetWkstaGetInfo os;
     NetGetJoinInformation :=
       match NetGetJoinInformation os with
       | inl e => inl e
       | inr js => inr (nm, js.2)
       end;
     GetComputerName := GetComputerName os;
     GetComputerNameEx := GetComputerNameEx os |}.

(** The records one call hands to the logger. *)
Definition call_log (os : OS) (c : Call) (w : World) : list LogRecord :=
  match c with
  | call_is_domain_joined =>
      match NetWkstaGetInfo os with
      | inl e => [{| levelname := ERROR;
                     message := "Error al verificar dominio: " ++ str e |}]
      | inr info =>
          join_log os ++
          [{| levelname := INFO;
              message := "Estado de la red: " ++ join_label os
                         ++ " - Nombre: " ++ langroup info |}]
      end
  | call_get_domain_info =>
      match domain_info (self w) with
      | None => [not_yet_queried]
      | Some _ => []
      end
  | call_get_computer_name => short_name_log os
  | call_get_full_computer_name => long_name_log os
  end.

(** * Equations of the methods *)

Ltac unfold_methods :=
  unfold is_domain_joined, _get_join_status, get_domain_info,
    get_computer_name, get_full_computer_name, try_except, os_call, raise,
    log, set_domain_info, get_self_domain_info, mbind, M_bind, mret, M_ret.

Lemma logged_nil w : logged [] w = w.
Proof. destruct w as [s lg]. unfold logged; simpl. by rewrite app_nil_r. Qed.

Lemma logged_logged rs1 rs2 w :
  logged rs2 (logged rs1 w) = logged (rs1 ++ rs2) w.
Proof. unfold logged; simpl. by rewrite app_assoc. Qed.

Lemma status_map_get (k : Z) :
  default "Unknown" (status_map !! k) =
  match k with
  | 0 => "Unknown" | 1 => "Unjoined" | 2 => "Workgroup" | 3 => "Domain"
  | _ => "Unknown"
  end.
Proof.
  unfold status_map.
  destruct (decide (k = 0)) as [->|H0]; [done|].
  destruct (decide (k = 1)) as [->|H1]; [done|].
  destruct (decide (k = 2)) as [->|H2]; [done|].
  destruct (decide (k = 3)) as [->|H3]; [done|].
  rewrite !lookup_insert_ne, lookup_empty by done. simpl.
  destruct k as [|[p|p|]|]; try done; destruct p; done.
Qed.

Lemma status_map_get_other (k : Z) :
  k ≠ 3 → default "Unknown" (status_map !! k) ≠ "Domain".
Proof.
  intros Hk. rewrite status_map_get.
  destruct k as [|p|p]; [done| |done].
  destruct p as [[?|?|]|[?|?|]|]; done.
Qed.

Section leaf_methods.
Context (os : OS) (w : World).

Lemma get_join_status_eq :
  _get_join_status os w = (Return (join_label os), logged (join_log os) w).
Proof.
  unfold_methods. unfold join_label, join_log.
  destruct (NetGetJoinInformation os) as [e|js]; simpl; [done|].
  by rewrite logged_nil.
Qed.

Lemma get_domain_info_eq :
  get_domain_info w =
  (Return (domain_info (self w)),
   match domain_info (self w) with
   | None => logged [not_yet_queried] w
   | Some _ => w
   end).
Proof. unfold_methods. by destruct (domain_info (self w)). Qed.

Lemma get_computer_name_eq :
  get_computer_name os w =
  (Return (short_name os), logged (short_name_log os) w).
Proof.
  unfold_methods. unfold short_name, short_name_log.
  destruct (GetComputerName os); simpl; [done|]. by rewrite logged_nil.
Qed.

End leaf_methods.

Section composed_methods.
Context (os : OS) (w : World).

Lemma get_full_computer_name_eq :
  get_full_computer_name os w =
  (Return (long_name os), logged (long_name_log os) w).
Proof.
  unfold get_full_computer_name, try_except, os_call, long_name,
    long_name_log.
  destruct (GetComputerNameEx os ComputerNameDnsFullyQualified) as [e|n].
  - unfold raise, log, mbind, M_bind.
    by rewrite get_computer_name_eq, logged_logged.
  - unfold mret, M_ret. by rewrite logged_nil.
Qed.

Lemma is_domain_joined_stores info :
  NetWkstaGetInfo os = inr info →
  is_domain_joined os w =
  (Return (is_domain (record_of os info)),
   {| self := {| domain_info := Some (record_of os info) |};
      logger := logger w ++ join_log os ++
        [{| levelname := INFO;
            message := "Estado de la red: " ++ join_label os
                       ++ " - Nombre: " ++ langroup info |}] |}).
Proof.
  intros Hinfo.
  unfold is_domain_joined, try_except, mbind, M_bind.
  unfold os_call at 1. rewrite Hinfo. unfold mret at 1, M_ret at 1.
  rewrite get_join_status_eq.
  unfold_methods. unfold logged. simpl. by rewrite <- app_assoc.
Qed.

Lemma is_domain_joined_fails e :
  NetWkstaGetInfo os = inl e →
  is_domain_joined os w =
  (Return false,
   logged [{| levelname := ERROR;
              message := "Error al verificar dominio: " ++ str e |}] w).
Proof. intros Hinfo. unfold_methods. by rewrite Hinfo. Qed.

(** *** The attribute across calls *)

Lemma get_computer_name_self : self (get_computer_name os w).2 = self w.
Proof. by rewrite get_computer_name_eq. Qed.

Lemma get_full_computer_name_self :
  self (get_full_computer_name os w).2 = self w.
Proof. by rewrite get_full_computer_name_eq. Qed.

Lemma get_domain_info_self : self (get_domain_info w).2 = self w.
Proof. rewrite get_domain_info_eq. by destruct (domain_info (self w)). Qed.

Lemma perform_keeps c :
  stores (os, c) = false → self (perform os c w) = self w.
Proof.
  unfold stores; simpl. destruct c; simpl; intros Hst.
  - destruct (NetWkstaGetInfo os) as [e|info] eqn:Hinfo; [|done].
    by rewrite (is_domain_joined_fails _ Hinfo).
  - apply get_domain_info_self.
  - apply get_computer_name_self.
  - apply get_full_computer_name_self.
Qed.

Lemma perform_stores c :
  stores (os, c) = true →
  ∃ info, NetWkstaGetInfo os = inr info
    ∧ self (perform os c w) = {| domain_info := Some (record_of os info) |}.
Proof.
  unfold stores; simpl. destruct c; try done.
  destruct (NetWkstaGetInfo os) as [e|info] eqn:Hinfo; [done|].
  intros _. exists info. split; [done|].
  simpl. by rewrite (is_domain_joined_stores _ Hinfo).
Qed.

End composed_methods.

(** *** Sequences of calls *)

Lemma run_calls_app cs1 cs2 w :
  run_calls (cs1 ++ cs2) w = run_calls cs2 (run_calls cs1 w).
Proof. apply foldl_app. Qed.

Lemma run_calls_keeps cs w :
  Forall (λ oc, stores oc = false) cs → self (run_calls cs w) = self w.
Proof.
  revert w. induction cs as [|[os c] cs IH]; intros w Hcs; [done|].
  inversion_clear Hcs as [|? ? Hoc Hrest]. simpl.
  rewrite (IH _ Hrest). by apply perform_keeps.
Qed.

Lemma run_calls_present cs w :
  is_Some (domain_info (self (run_calls cs w))) ↔
  is_Some (domain_info (self w)) ∨ Exists (λ oc, stores oc = true) cs.
Proof.
  revert w. induction cs as [|[os c] cs IH]; intros w; simpl.
  - rewrite Exists_nil. tauto.
  - rewrite IH, Exists_cons.
    destruct (stores (os, c)) eqn:Hst.
    + destruct (perform_stores _ w _ Hst) as (info & _ & ->). simpl.
      split; [intros _; right; by left|intros _; left; by eexists].
    + rewrite (perform_keeps _ _ _ Hst).
      split; [intros [?|?]; auto|intros [?|[?|?]]; auto; done].
Qed.

Lemma record_of_consistent os info : consistent (record_of os info).
Proof. unfold consistent, record_of; simpl. apply bool_decide_eq_true. Qed.

Lemma run_calls_consistent cs w d :
  (∀ d0, domain_info (self w) = Some d0 → consistent d0) →
  domain_info (self (run_calls cs w)) = Some d → consistent d.
Proof.
  revert w. induction cs as [|[os c] cs IH]; intros w Hw; simpl; [by auto|].
  apply IH. intros d0.
  destruct (stores (os, c)) eqn:Hst.
  - destruct (perform_stores _ w _ Hst) as (info & _ & ->). simpl.
    intros [= <-]. apply record_of_consistent.
  - rewrite (perform_keeps _ _ _ Hst). apply Hw.
Qed.

(** *** The scenarios of the specification, run *)

Example scenario_domain :
  is_domain_joined os_corp (fresh []) =
  (Return true,
   {| self := {| domain_info := Some {| name := "CORP"; is_domain := true;
                                        join_type := "Domain" |} |};
      logger := [{| levelname := INFO;
                    message := "Estado de la red: Domain - Nombre: CORP" |}]
   |}).
Proof. reflexivity. Qed.

Example scenario_workgroup :
  is_domain_joined os_workgroup (fresh []) =
  (Return false,
   {| self := {| domain_info := Some {| name := "WORKGROUP";
                                        is_domain := false;
                                        join_type := "Workgroup" |} |};
      logger := [{| levelname := INFO;
                    message :=
                      "Estado de la red: Workgroup - Nombre: WORKGROUP" |}]
   |}).
Proof. reflexivity. Qed.

Example scenario_join_status_raises :
  (is_domain_joined os_no_join (fresh [])).1 = Return false
  ∧ domain_info (self (is_domain_joined os_no_join (fresh [])).2) =
      Some {| name := "CORP"; is_domain := false; join_type := "Unknown" |}.
Proof. split; reflexivity. Qed.

Example scenario_computer_name_raises :
  (get_computer_name os_no_names (fresh [])).1 = Return "UNKNOWN".
Proof. reflexivity. Qed.

Example scenario_helper :
  (check_domain_status os_no_fqdn []).1 =
  Return {| Status.is_domain_joined := true;
            Status.computer_name := "PC01";
            Status.full_name := "PC01";
            Status.domain_info := Some {| name := "CORP"; is_domain := true;
                                          join_type := "Domain" |} |}.
Proof. reflexivity. Qed.

(** * Properties *)

(** ** The join status *)

(** C1. When the join-information call answers with the integer [code],
    [_get_join_status] returns the label of the fixed table: 0 gives
    "Unknown", 1 "Unjoined", 2 "Workgroup", 3 "Domain", and every other
    integer gives "Unknown".  Nothing is logged and the checker is left as
    it was. *)
Theorem get_join_status_follows_table os w nm code :
  NetGetJoinInformation os = inr (nm, code) →
  _get_join_status os w =
    (Return match code with
            | 0 => "Unknown"
            | 1 => "Unjoined"
            | 2 => "Workgroup"
            | 3 => "Domain"
            | _ => "Unknown"
            end, w)
  ∧ (code < 0 ∨ 3 < code → (_get_join_status os w).1 = Return "Unknown").
Proof.
  intros Hjoin.
  assert (_get_join_status os w =
          (Return (default "Unknown" (status_map !! code)), w)) as ->.
  { rewrite get_join_status_eq. unfold join_label, join_log.
    rewrite Hjoin. simpl. by rewrite logged_nil. }
  rewrite status_map_get. split; [done|].
  intros Hout. simpl. f_equal.
  destruct code as [|p|p]; [lia|..|done].
  destruct p as [[?|?|]|[?|?|]|]; first [done|lia].
Qed.

Lemma get_join_status_follows_table_witness :
  NetGetJoinInformation os_odd_status = inr ("CORP", 7)
  ∧ _get_join_status os_odd_status (fresh []) = (Return "Unknown", fresh [])
  ∧ NetGetJoinInformation os_corp = inr ("CORP", 3)
  ∧ _get_join_status os_corp (fresh []) = (Return "Domain", fresh []).
Proof.
  split; [reflexivity|]. split.
  { apply (get_join_status_follows_table os_odd_status (fresh []) "CORP" 7).
    reflexivity. }
  split; [reflexivity|].
  apply (get_join_status_follows_table os_corp (fresh []) "CORP" 3).
  reflexivity.
Defined.

(** C5. When the join-information call raises, [_get_join_status] returns
    "Unknown" (it does not raise) and hands the logger one warning that
    quotes the exception; the checker is left as it was. *)
Theorem get_join_status_failure os w e :
  NetGetJoinInformation os = inl e →
  _get_join_status os w =
    (Return "Unknown",
     {| self := self w;
        logger := logger w ++
          [{| levelname := WARNING;
              message := "No se pudo obtener NetGetJoinInformation: "
                         ++ str e |}] |}).
Proof.
  intros Hjoin. rewrite get_join_status_eq.
  unfold join_label, join_log. by rewrite Hjoin.
Qed.

Lemma get_join_status_failure_witness :
  NetGetJoinInformation os_no_join = inl interface_unknown
  ∧ _get_join_status os_no_join (fresh []) =
      (Return "Unknown",
       {| self := __init__;
          logger := [{| levelname := WARNING;
                        message := "No se pudo obtener NetGetJoinInformation: (1717, 'NetGetJoinInformation', 'The interface is unknown.')" |}] |}).
Proof.
  split; [reflexivity|].
  apply (get_join_status_failure os_no_join (fresh []) interface_unknown).
  reflexivity.
Defined.

(** ** The stored record *)

(** C2. A call of [is_domain_joined] that gets the workstation information
    stores a record whose [is_domain] is true exactly when its [join_type]
    is "Domain", and returns that [is_domain] to its caller. *)
Theorem stored_record_is_consistent os w info :
  NetWkstaGetInfo os = inr info →
  ∃ d, domain_info (self (is_domain_joined os w).2) = Some d
     ∧ (is_domain d = true ↔ join_type d = "Domain")
     ∧ (is_domain_joined os w).1 = Return (is_domain d).
Proof.
  intros Hinfo. exists (record_of os info).
  rewrite (is_domain_joined_stores _ _ _ Hinfo). simpl.
  split; [done|]. split; [|done]. apply (record_of_consistent os info).
Qed.

Lemma stored_record_is_consistent_witness :
  NetWkstaGetInfo os_workgroup = inr (wksta "WORKGROUP")
  ∧ ∃ d, domain_info (self (is_domain_joined os_workgroup (fresh [])).2)
         = Some d
       ∧ (is_domain d = true ↔ join_type d = "Domain")
       ∧ (is_domain_joined os_workgroup (fresh [])).1 = Return (is_domain d).
Proof.
  split; [reflexivity|].
  apply (stored_record_is_consistent os_workgroup (fresh [])
           (wksta "WORKGROUP")).
  reflexivity.
Defined.

(** Along any sequence of calls on a new checker the stored record, when
    there is one, satisfies the invariant. *)
Corollary reachable_record_is_consistent cs lg d :
  domain_info (self (run_calls cs (fresh lg))) = Some d →
  is_domain d = true ↔ join_type d = "Domain".
Proof. apply run_calls_consistent. by intros d0. Qed.

(** ** The computer names *)

(** C8. When the computer-name call raises, [get_computer_name] returns the
    string "UNKNOWN" (it does not raise) and hands the logger one error
    that quotes the exception. *)
Theorem get_computer_name_failure os w e :
  GetComputerName os = inl e →
  get_computer_name os w =
    (Return "UNKNOWN",
     {| self := self w;
        logger := logger w ++
          [{| levelname := ERROR;
              message := "Error al obtener nombre de computadora: "
                         ++ str e |}] |}).
Proof.
  intros Hname. rewrite get_computer_name_eq.
  unfold short_name, short_name_log. by rewrite Hname.
Qed.

Lemma get_computer_name_failure_witness :
  GetComputerName os_no_names = inl invalid_handle
  ∧ get_computer_name os_no_names (fresh []) =
      (Return "UNKNOWN",
       {| self := __init__;
          logger := [{| levelname := ERROR;
                        message := "Error al obtener nombre de computadora: (6, 'GetComputerName', 'The handle is invalid.')" |}] |}).
Proof.
  split; [reflexivity|].
  apply (get_computer_name_failure os_no_names (fresh []) invalid_handle).
  reflexivity.
Defined.

(** C7. When the call for the fully-qualified name raises,
    [get_full_computer_name] returns what [get_computer_name] returns
    while the system answers the same way, whatever the logger holds; that
    is "UNKNOWN" when the short-name call raises as well. *)
Theorem get_full_computer_name_falls_back os w e :
  GetComputerNameEx os ComputerNameDnsFullyQualified = inl e →
  (∀ w', (get_full_computer_name os w).1 = (get_computer_name os w').1)
  ∧ (fails (GetComputerName os) →
     (get_full_computer_name os w).1 = Return "UNKNOWN").
Proof.
  intros Hfqdn. rewrite get_full_computer_name_eq. unfold long_name.
  rewrite Hfqdn. simpl. split.
  - intros w'. by rewrite get_computer_name_eq.
  - intros [e' Hname]. unfold short_name. by rewrite Hname.
Qed.

Lemma get_full_computer_name_falls_back_witness :
  GetComputerNameEx os_no_fqdn ComputerNameDnsFullyQualified
    = inl bad_parameter
  ∧ (get_full_computer_name os_no_fqdn (fresh [])).1 = Return "PC01"
  ∧ (get_computer_name os_no_fqdn (fresh [])).1 = Return "PC01"
  ∧ fails (GetComputerName os_no_names)
  ∧ (get_full_computer_name os_no_names (fresh [])).1 = Return "UNKNOWN".
Proof.
  split; [reflexivity|].
  split; [|split; [reflexivity|split; [by eexists|]]].
  - apply (proj1 (get_full_computer_name_falls_back os_no_fqdn (fresh [])
                    bad_parameter eq_refl) (fresh [])).
  - apply (proj2 (get_full_computer_name_falls_back os_no_names (fresh [])
                    bad_parameter eq_refl)).
    by eexists.
Defined.

(** ** Failures of the query *)

(** C4. [is_domain_joined] never raises.  When the workstation-information
    call raises it logs one error quoting the exception and returns
    [False]; when only the join-information call raises, the warning of
    [_get_join_status] is logged and the call returns [False] too.  Either
    way the value is the one a machine that is genuinely not in a domain
    gives. *)
Theorem is_domain_joined_failure os w :
  (∃ b, (is_domain_joined os w).1 = Return b)
  ∧ (∀ e, NetWkstaGetInfo os = inl e →
       is_domain_joined os w =
         (Return false,
          {| self := self w;
             logger := logger w ++
               [{| levelname := ERROR;
                   message := "Error al verificar dominio: " ++ str e |}] |}))
  ∧ (∀ info e, NetWkstaGetInfo os = inr info →
       NetGetJoinInformation os = inl e →
       (is_domain_joined os w).1 = Return false
       ∧ logger (is_domain_joined os w).2 =
           (logger w ++
              [{| levelname := WARNING;
                  message := "No se pudo obtener NetGetJoinInformation: "
                             ++ str e |};
               {| levelname := INFO;
                  message := "Estado de la red: Unknown - Nombre: "
                             ++ langroup info |}])%list)
  ∧ (fails (NetWkstaGetInfo os) ∨ fails (NetGetJoinInformation os) →
     ∀ os' w' info' nm code,
       NetWkstaGetInfo os' = inr info' →
       NetGetJoinInformation os' = inr (nm, code) →
       code ≠ 3 →
       (is_domain_joined os w).1 = (is_domain_joined os' w').1).
Proof.
  assert (∀ info e, NetWkstaGetInfo os = inr info →
            NetGetJoinInformation os = inl e →
            is_domain_joined os w =
              (Return false,
               {| self := {| domain_info := Some (record_of os info) |};
                  logger := logger w ++
                    [{| levelname := WARNING;
                        message := "No se pudo obtener NetGetJoinInformation: "
                                   ++ str e |};
                     {| levelname := INFO;
                        message := "Estado de la red: Unknown - Nombre: "
                                   ++ langroup info |}] |})) as Hjoin.
  { intros info e Hinfo He. rewrite (is_domain_joined_stores _ _ _ Hinfo).
    unfold record_of, join_label, join_log. by rewrite He. }
  split; [|split; [|split]].
  - destruct (NetWkstaGetInfo os) as [e|info] eqn:Hinfo.
    + rewrite (is_domain_joined_fails _ _ _ Hinfo). by eexists.
    + rewrite (is_domain_joined_stores _ _ _ Hinfo). by eexists.
  - apply is_domain_joined_fails.
  - intros info e Hinfo He. by rewrite (Hjoin _ _ Hinfo He).
  - intros Hfail os' w' info' nm code Hinfo' Hjoin' Hcode.
    assert ((is_domain_joined os' w').1 = Return false) as ->.
    { rewrite (is_domain_joined_stores _ _ _ Hinfo'). simpl. f_equal.
      apply bool_decide_eq_false. unfold join_label. rewrite Hjoin'.
      by apply status_map_get_other. }
    destruct (NetWkstaGetInfo os) as [e|info] eqn:Hinfo.
    + by rewrite (is_domain_joined_fails _ _ _ Hinfo).
    + destruct Hfail as [[e He]|[e He]]; [done|].
      by rewrite (Hjoin _ _ eq_refl He).
Qed.

Lemma is_domain_joined_failure_witness :
  NetWkstaGetInfo os_no_wksta = inl access_denied
  ∧ is_domain_joined os_no_wksta (fresh []) =
      (Return false,
       {| self := __init__;
          logger := [{| levelname := ERROR;
                        message := "Error al verificar dominio: (5, 'NetWkstaGetInfo', 'Access is denied.')" |}] |})
  ∧ (is_domain_joined os_no_join (fresh [])).1 = Return false
  ∧ (is_domain_joined os_no_wksta (fresh [])).1
    = (is_domain_joined os_workgroup (fresh [])).1.
Proof.
  split; [reflexivity|].
  destruct (is_domain_joined_failure os_no_wksta (fresh []))
    as (_ & Hwksta & _ & Hsame).
  destruct (is_domain_joined_failure os_no_join (fresh []))
    as (_ & _ & Hjoin & _).
  split; [apply (Hwksta _ eq_refl)|].
  split; [apply (Hjoin _ _ eq_refl eq_refl)|].
  apply (Hsame (or_introl (ex_intro _ _ eq_refl)) os_workgroup (fresh [])
           _ "WORKGROUP" 2 eq_refl eq_refl).
  done.
Defined.

(** C3, as the code has it.  A call of [is_domain_joined] that gets the
    workstation information leaves a record present, also when the
    join-information call raises; a call whose workstation-information call
    raises leaves the attribute as it was.  So on a new checker the record
    is present exactly when some earlier call of [is_domain_joined] got the
    workstation information. *)
Theorem record_present_after_stored_query :
  (∀ os w info, NetWkstaGetInfo os = inr info →
     is_Some (domain_info (self (is_domain_joined os w).2)))
  ∧ (∀ os w, fails (NetWkstaGetInfo os) →
     self (is_domain_joined os w).2 = self w)
  ∧ (∀ cs lg,
     is_Some (domain_info (self (run_calls cs (fresh lg)))) ↔
     Exists (λ oc, stores oc = true) cs).
Proof.
  split; [|split].
  - intros os w info Hinfo.
    rewrite (is_domain_joined_stores _ _ _ Hinfo). by eexists.
  - intros os w [e Hinfo]. by rewrite (is_domain_joined_fails _ _ _ Hinfo).
  - intros cs lg. rewrite run_calls_present. simpl.
    split; [intros [[? [=]]|?]; done|by right].
Qed.

Lemma record_present_after_stored_query_witness :
  NetWkstaGetInfo os_no_join = inr (wksta "CORP")
  ∧ fails (NetGetJoinInformation os_no_join)
  ∧ is_Some (domain_info (self (is_domain_joined os_no_join (fresh [])).2))
  ∧ fails (NetWkstaGetInfo os_no_wksta)
  ∧ self (is_domain_joined os_no_wksta
            (is_domain_joined os_corp (fresh [])).2).2
    = self (is_domain_joined os_corp (fresh [])).2.
Proof.
  destruct record_present_after_stored_query as (Hpresent & Hkept & _).
  split; [reflexivity|]. split; [by eexists|].
  split; [apply (Hpresent os_no_join (fresh []) (wksta "CORP")); reflexivity|].
  split; [by eexists|].
  apply (Hkept os_no_wksta). by eexists.
Defined.

(** C3 as the specification words it does not hold: the first call on a new
    checker, made while the workstation-information call raises, returns
    and leaves no record. *)
Lemma record_absent_after_failed_query :
  fails (NetWkstaGetInfo os_no_wksta)
  ∧ (is_domain_joined os_no_wksta (fresh [])).1 = Return false
  ∧ domain_info (self (is_domain_joined os_no_wksta (fresh [])).2) = None.
Proof. split; [by eexists|]. split; reflexivity. Qed.

(** ** Reading the record *)

(** C6. On a checker on which [is_domain_joined] has not been called,
    whatever else was called, [get_domain_info] returns [None] and hands
    the logger one warning.  In every state it returns the attribute as it
    is stored, and right after a query that stored a record it returns that
    record and logs nothing. *)
Theorem get_domain_info_before_and_after :
  (∀ cs lg, Forall (λ oc : OS * Call, oc.2 ≠ call_is_domain_joined) cs →
     let w := run_calls cs (fresh lg) in
     get_domain_info w =
       (Return None,
        {| self := self w; logger := logger w ++ [not_yet_queried] |}))
  ∧ (∀ w, (get_domain_info w).1 = Return (domain_info (self w)))
  ∧ (∀ os w info, NetWkstaGetInfo os = inr info →
     let w' := (is_domain_joined os w).2 in
     get_domain_info w' = (Return (Some (record_of os info)), w')).
Proof.
  split; [|split].
  - intros cs lg Hcs w.
    assert (self w = __init__) as Hself.
    { apply (run_calls_keeps cs (fresh lg)).
      eapply Forall_impl; [exact Hcs|].
      intros [os c] Hc. unfold stores. simpl in *. by destruct c. }
    rewrite get_domain_info_eq. unfold logged. by rewrite Hself.
  - intros w. by rewrite get_domain_info_eq.
  - intros os w info Hinfo w'. subst w'.
    by rewrite (is_domain_joined_stores _ _ _ Hinfo), get_domain_info_eq.
Qed.

Lemma get_domain_info_before_and_after_witness :
  Forall (λ oc : OS * Call, oc.2 ≠ call_is_domain_joined) names_first
  ∧ get_domain_info (run_calls names_first (fresh [])) =
      (Return None,
       {| self := __init__;
          logger := [{| levelname := ERROR;
                        message := "Error al obtener FQDN: (87, 'GetComputerNameEx', 'The parameter is incorrect.')" |};
                     {| levelname := ERROR;
                        message := "Error al obtener nombre de computadora: (6, 'GetComputerName', 'The handle is invalid.')" |};
                     not_yet_queried; not_yet_queried] |})
  ∧ NetWkstaGetInfo os_corp = inr (wksta "CORP")
  ∧ (get_domain_info (is_domain_joined os_corp (fresh [])).2).1 =
      Return (Some {| name := "CORP"; is_domain := true;
                      join_type := "Domain" |}).
Proof.
  destruct get_domain_info_before_and_after as (Hbefore & _ & Hafter).
  assert (Forall (λ oc : OS * Call, oc.2 ≠ call_is_domain_joined) names_first)
    as Hnames by (repeat constructor; discriminate).
  split; [exact Hnames|].
  split; [exact (Hbefore names_first [] Hnames)|].
  split; [reflexivity|].
  by rewrite (Hafter os_corp (fresh []) (wksta "CORP") eq_refl).
Defined.

(** ** Overwriting *)

(** C9. A call of [is_domain_joined] that gets the workstation information
    sets the attribute to the record built from this call's answers alone,
    whatever was stored before; [get_domain_info], [get_computer_name] and
    [get_full_computer_name] leave the attribute as it is; and after any
    further calls that store nothing, [get_domain_info] returns exactly the
    record of the last storing call. *)
Theorem query_overwrites_record :
  (∀ os w info, NetWkstaGetInfo os = inr info →
     self (is_domain_joined os w).2 =
       {| domain_info := Some {|
            name := langroup info;
            is_domain := bool_decide (join_label os = "Domain");
            join_type := join_label os |} |})
  ∧ (∀ os w,
       self (get_domain_info w).2 = self w
       ∧ self (get_computer_name os w).2 = self w
       ∧ self (get_full_computer_name os w).2 = self w)
  ∧ (∀ cs1 os info cs2 w, NetWkstaGetInfo os = inr info →
     Forall (λ oc, stores oc = false) cs2 →
     (get_domain_info
        (run_calls (cs1 ++ (os, call_is_domain_joined) :: cs2) w)).1 =
       Return (Some (record_of os info))).
Proof.
  split; [|split].
  - intros os w info Hinfo. by rewrite (is_domain_joined_stores _ _ _ Hinfo).
  - intros os w.
    auto using get_domain_info_self, get_computer_name_self,
      get_full_computer_name_self.
  - intros cs1 os info cs2 w Hinfo Hcs2.
    rewrite get_domain_info_eq, run_calls_app. simpl.
    rewrite (run_calls_keeps _ _ Hcs2).
    by rewrite (is_domain_joined_stores _ _ _ Hinfo).
Qed.

Lemma query_overwrites_record_witness :
  NetWkstaGetInfo os_workgroup = inr (wksta "WORKGROUP")
  ∧ Forall (λ oc, stores oc = false) failed_then_name
  ∧ self (is_domain_joined os_workgroup
            (is_domain_joined os_corp (fresh [])).2).2
    = {| domain_info := Some {| name := "WORKGROUP"; is_domain := false;
                                join_type := "Workgroup" |} |}
  ∧ (get_domain_info
       (run_calls ([(os_corp, call_is_domain_joined)] ++
                   (os_workgroup, call_is_domain_joined) :: failed_then_name)
          (fresh []))).1
    = Return (Some {| name := "WORKGROUP"; is_domain := false;
                      join_type := "Workgroup" |}).
Proof.
  destruct query_overwrites_record as (Hset & _ & Hlast).
  assert (Forall (λ oc, stores oc = false) failed_then_name) as Hrest
    by (repeat constructor).
  split; [reflexivity|]. split; [exact Hrest|]. split.
  - apply (Hset os_workgroup _ (wksta "WORKGROUP")). reflexivity.
  - apply (Hlast [(os_corp, call_is_domain_joined)] os_workgroup
             (wksta "WORKGROUP")); [reflexivity|exact Hrest].
Defined.

(** ** The helper *)

(** C10. [check_domain_status] always returns its dict.  When the entry
    ['domain_info'] is a record, the entry ['is_domain_joined'] is that
    record's [is_domain]; and ['domain_info'] is [None] exactly when the
    workstation-information call of the helper's query raised. *)
Theorem check_domain_status_consistent os lg :
  ∃ r lg', check_domain_status os lg = (Return r, lg')
    ∧ (∀ d, Status.domain_info r = Some d →
         Status.is_domain_joined r = is_domain d)
    ∧ (Status.domain_info r = None ↔ fails (NetWkstaGetInfo os)).
Proof.
  unfold check_domain_status, mbind, M_bind.
  destruct (NetWkstaGetInfo os) as [e|info] eqn:Hinfo.
  - rewrite (is_domain_joined_fails _ _ _ Hinfo), get_computer_name_eq,
      get_full_computer_name_eq, get_domain_info_eq. simpl.
    do 2 eexists. split; [reflexivity|]. simpl.
    split; [done|]. split; [by eexists|done].
  - rewrite (is_domain_joined_stores _ _ _ Hinfo), get_computer_name_eq,
      get_full_computer_name_eq, get_domain_info_eq. simpl.
    do 2 eexists. split; [reflexivity|]. simpl.
    split; [by intros d [= <-]|]. split; [done|by intros [? ?]].
Qed.

(** * Further properties of the code *)

(** ** Lemmas *)


Lemma join_label_in_labels os : join_label os ∈ labels.
Proof.
  unfold join_label, labels.
  destruct (NetGetJoinInformation os) as [e|[nm code]]; simpl.
  - set_solver.
  - rewrite status_map_get.
    destruct code as [|[[?|?|]|[?|?|]|]|]; set_solver.
Qed.

(** Where a stored record comes from. *)
Lemma run_calls_record cs w d :
  domain_info (self (run_calls cs w)) = Some d →
  domain_info (self w) = Some d
  ∨ ∃ os info, (os, call_is_domain_joined) ∈ cs
      ∧ NetWkstaGetInfo os = inr info ∧ d = record_of os info.
Proof.
  revert w. induction cs as [|[os c] cs IH]; intros w; simpl; [by left|].
  intros Hd. destruct (IH _ Hd) as [Hhere|(os' & info & Hin & Hinfo & ->)].
  - destruct (stores (os, c)) eqn:Hst.
    + destruct (perform_stores _ w _ Hst) as (info & Hinfo & Hself).
      rewrite Hself in Hhere. simpl in Hhere. injection Hhere as <-.
      right. exists os, info. split; [|done].
      unfold stores in Hst. simpl in Hst. destruct c; try done. set_solver.
    + rewrite (perform_keeps _ _ _ Hst) in Hhere. by left.
  - right. exists os', info. set_solver.
Qed.

(** ** The verdict of the query *)


(** X2. [_get_join_status] returns one of the four labels of its table,
    whatever the system answers, and so the [join_type] of a record stored
    on a checker is always one of these four. *)
Theorem join_type_is_a_label :
  (∀ os w, ∃ l, (_get_join_status os w).1 = Return l ∧ l ∈ labels)
  ∧ (∀ cs lg d, domain_info (self (run_calls cs (fresh lg))) = Some d →
       join_type d ∈ labels).
Proof.
  split.
  - intros os w. exists (join_label os).
    rewrite get_join_status_eq. split; [done|apply join_label_in_labels].
  - intros cs lg d Hd.
    destruct (run_calls_record _ _ _ Hd) as [?|(os & info & _ & _ & ->)];
      [done|].
    apply join_label_in_labels.
Qed.

Lemma join_type_is_a_label_witness :
  domain_info (self (run_calls
                 [(os_odd_status, call_is_domain_joined)] (fresh []))) =
    Some {| name := "CORP"; is_domain := false; join_type := "Unknown" |}
  ∧ "Unknown" ∈ labels.
Proof.
  split; [reflexivity|].
  apply (proj2 join_type_is_a_label
           [(os_odd_status, call_is_domain_joined)] []
           {| name := "CORP"; is_domain := false; join_type := "Unknown" |}).
  reflexivity.
Defined.

(** X3. What [is_domain_joined] returns does not depend on the checker it
    is called on; asking twice while the system answers the same way gives
    the same value and leaves the same attribute as asking once. *)
Theorem is_domain_joined_ignores_history os w w' :
  (is_domain_joined os w).1 = (is_domain_joined os w').1
  ∧ (is_domain_joined os (is_domain_joined os w).2).1
    = (is_domain_joined os w).1
  ∧ self (is_domain_joined os (is_domain_joined os w).2).2
    = self (is_domain_joined os w).2.
Proof.
  destruct (NetWkstaGetInfo os) as [e|info] eqn:Hinfo.
  - by rewrite !(is_domain_joined_fails _ _ _ Hinfo).
  - by rewrite !(is_domain_joined_stores _ _ _ Hinfo).
Qed.

(** X4. A query that fails after one that stored a record returns [False]
    and leaves the earlier record in place: [get_domain_info] still returns
    it, without a warning, whatever its [is_domain] says. *)
Theorem failed_requery_keeps_record os1 os2 w info :
  NetWkstaGetInfo os1 = inr info →
  fails (NetWkstaGetInfo os2) →
  let w2 := (is_domain_joined os2 (is_domain_joined os1 w).2).2 in
  (is_domain_joined os2 (is_domain_joined os1 w).2).1 = Return false
  ∧ get_domain_info w2 = (Return (Some (record_of os1 info)), w2).
Proof.
  intros Hinfo [e Hfail] w2. subst w2.
  rewrite (is_domain_joined_fails _ _ _ Hfail).
  rewrite (is_domain_joined_stores _ _ _ Hinfo).
  split; [done|]. by rewrite get_domain_info_eq.
Qed.

Lemma failed_requery_keeps_record_witness :
  NetWkstaGetInfo os_corp = inr (wksta "CORP")
  ∧ fails (NetWkstaGetInfo os_no_wksta)
  ∧ (is_domain_joined os_no_wksta
       (is_domain_joined os_corp (fresh [])).2).1 = Return false
  ∧ (get_domain_info
       (is_domain_joined os_no_wksta
          (is_domain_joined os_corp (fresh [])).2).2).1 =
      Return (Some {| name := "CORP"; is_domain := true;
                      join_type := "Domain" |}).
Proof.
  assert (fails (NetWkstaGetInfo os_no_wksta)) as Hfail by (by eexists).
  destruct (failed_requery_keeps_record os_corp os_no_wksta (fresh [])
              (wksta "CORP") eq_refl Hfail) as [Hfalse Hkept].
  split; [reflexivity|]. split; [exact Hfail|]. split; [exact Hfalse|].
  by rewrite Hkept.
Defined.

(** X5. The name that [NetGetJoinInformation] reports plays no part: with
    another name in its answer, [_get_join_status] and [is_domain_joined]
    return the same value and leave the same world. *)
Theorem join_name_is_ignored nm os w :
  _get_join_status (with_join_name nm os) w = _get_join_status os w
  ∧ is_domain_joined (with_join_name nm os) w = is_domain_joined os w.
Proof.
  assert (join_label (with_join_name nm os) = join_label os) as Hlabel.
  { unfold join_label, with_join_name; simpl.
    by destruct (NetGetJoinInformation os). }
  assert (join_log (with_join_name nm os) = join_log os) as Hlog.
  { unfold join_log, with_join_name; simpl.
    by destruct (NetGetJoinInformation os). }
  split.
  - by rewrite !get_join_status_eq, Hlabel, Hlog.
  - destruct (NetWkstaGetInfo os) as [e|info] eqn:Hinfo.
    + by rewrite (is_domain_joined_fails os _ _ Hinfo),
        (is_domain_joined_fails (with_join_name nm os) _ e Hinfo).
    + rewrite (is_domain_joined_stores os _ _ Hinfo),
        (is_domain_joined_stores (with_join_name nm os) _ info Hinfo).
      unfold record_of. by rewrite Hlabel, Hlog.
Qed.

(** ** The computer names, case by case *)



(** ** The logger across calls *)

Lemma perform_logger os c w :
  logger (perform os c w) = (logger w ++ call_log os c w)%list.
Proof.
  destruct c; simpl.
  - destruct (NetWkstaGetInfo os) as [e|info] eqn:Hinfo.
    + by rewrite (is_domain_joined_fails _ _ _ Hinfo).
    + by rewrite (is_domain_joined_stores _ _ _ Hinfo).
  - rewrite get_domain_info_eq. simpl.
    destruct (domain_info (self w)); simpl; [|done]. by rewrite app_nil_r.
  - by rewrite get_computer_name_eq.
  - by rewrite get_full_computer_name_eq.
Qed.

Lemma call_log_length os c w : (length (call_log os c w) ≤ 2)%nat.
Proof.
  destruct c; simpl.
  - unfold join_log.
    destruct (NetWkstaGetInfo os), (NetGetJoinInformation os); simpl; lia.
  - destruct (domain_info (self w)); simpl; lia.
  - unfold short_name_log. destruct (GetComputerName os); simpl; lia.
  - unfold long_name_log, short_name_log.
    destruct (GetComputerNameEx os ComputerNameDnsFullyQualified),
      (GetComputerName os); simpl; lia.
Qed.


(** X7. Calls only ever add to what the logger was handed: after any
    sequence of calls the earlier records are still there, in order, as a
    prefix, and each call has added at most two records. *)
Theorem log_is_append_only cs w :
  ∃ rs, logger (run_calls cs w) = (logger w ++ rs)%list
      ∧ (length rs ≤ 2 * length cs)%nat.
Proof.
  revert w. induction cs as [|[os c] cs IH]; intros w; simpl.
  - exists []. by rewrite app_nil_r.
  - destruct (IH (perform os c w)) as (rs & -> & Hlen).
    exists (call_log os c w ++ rs)%list.
    rewrite perform_logger, <- app_assoc. split; [done|].
    rewrite length_app. pose proof (call_log_length os c w). lia.
Qed.



(** ** The helper, entry by entry *)

Lemma not_yet_queried_not_logged os c w :
  c ≠ call_get_domain_info → not_yet_queried ∉ call_log os c w.
Proof.
  intros Hc Hin. destruct c; [| done | |]; simpl in Hin.
  - unfold join_log in Hin.
    destruct (NetWkstaGetInfo os), (NetGetJoinInformation os);
      simpl in Hin;
      repeat (apply elem_of_cons in Hin as [Hin|Hin]; [discriminate|]);
      by apply elem_of_nil in Hin.
  - unfold short_name_log in Hin.
    destruct (GetComputerName os);
      repeat (apply elem_of_cons in Hin as [Hin|Hin]; [discriminate|]);
      by apply elem_of_nil in Hin.
  - unfold long_name_log, short_name_log in Hin.
    destruct (GetComputerNameEx os ComputerNameDnsFullyQualified),
      (GetComputerName os);
      repeat (apply elem_of_cons in Hin as [Hin|Hin]; [discriminate|]);
      by apply elem_of_nil in Hin.
Qed.

Lemma check_domain_status_eq os lg :
  check_domain_status os lg =
  (Return {| Status.is_domain_joined :=
               match NetWkstaGetInfo os with
               | inl _ => false
               | inr info => is_domain (record_of os info)
               end;
             Status.computer_name := short_name os;
             Status.full_name := long_name os;
             Status.domain_info :=
               match NetWkstaGetInfo os with
               | inl _ => None
               | inr info => Some (record_of os info)
               end |},
   lg ++ call_log os call_is_domain_joined (fresh lg)
      ++ call_log os call_get_computer_name (fresh lg)
      ++ call_log os call_get_full_computer_name (fresh lg)
      ++ match NetWkstaGetInfo os with
         | inl _ => [not_yet_queried]
         | inr _ => []
         end)%list.
Proof.
  unfold check_domain_status, mbind, M_bind. simpl.
  destruct (NetWkstaGetInfo os) as [e|info] eqn:Hinfo.
  - rewrite (is_domain_joined_fails _ _ _ Hinfo), get_computer_name_eq,
      get_full_computer_name_eq, get_domain_info_eq. simpl.
    by rewrite <- !app_assoc.
  - rewrite (is_domain_joined_stores _ _ _ Hinfo), get_computer_name_eq,
      get_full_computer_name_eq, get_domain_info_eq. simpl.
    by rewrite app_nil_r, <- !app_assoc.
Qed.


(** X10. [check_domain_status] keeps what the logger held and adds at most
    five records; among them is the warning "Debe ejecutar
    is_domain_joined() primero" exactly when the workstation-information
    call raised, although the helper did run the query. *)
Theorem check_domain_status_log os lg :
  ∃ rs, (check_domain_status os lg).2 = (lg ++ rs)%list
      ∧ (length rs ≤ 5)%nat
      ∧ (not_yet_queried ∈ rs ↔ fails (NetWkstaGetInfo os)).
Proof.
  rewrite check_domain_status_eq. simpl. eexists. split; [reflexivity|].
  pose proof (not_yet_queried_not_logged os call_is_domain_joined (fresh lg))
    as Hq.
  pose proof (not_yet_queried_not_logged os call_get_computer_name (fresh lg))
    as Hn.
  pose proof (not_yet_queried_not_logged os call_get_full_computer_name
                (fresh lg)) as Hf.
  pose proof (call_log_length os call_get_computer_name (fresh lg)) as Ln.
  pose proof (call_log_length os call_get_full_computer_name (fresh lg))
    as Lf.
  pose proof (call_log_length os call_is_domain_joined (fresh lg)) as Lq.
  simpl in *. split.
  - rewrite !length_app.
    assert (length (short_name_log os) ≤ 1)%nat.
    { unfold short_name_log. destruct (GetComputerName os); simpl; lia. }
    destruct (NetWkstaGetInfo os); simpl in *; lia.
  - rewrite !elem_of_app. split.
    + intros [Hin|[Hin|[Hin|Hin]]].
      * by destruct Hq.
      * by destruct Hn.
      * by destruct Hf.
      * destruct (NetWkstaGetInfo os) as [e|info]; [by exists e|].
        by apply elem_of_nil in Hin.
    + intros [e ->]. do 3 right. apply elem_of_cons. by left.
Qed.

(** ** The demonstration script *)

Lemma main_stores os lg info :
  NetWkstaGetInfo os = inr info →
  run_main os lg =
  (Return tt,
   {| world :=
        {| self := {| domain_info := Some (record_of os info) |};
           logger := lg ++ short_name_log os ++ long_name_log os
                        ++ call_log os call_is_domain_joined (fresh lg) |};
      stdout :=
        [str_mul "=" 60;
         "VERIFICADOR DE DOMINIO - Prueba";
         str_mul "=" 60;
         nl ++ "📌 Nombre de la PC: " ++ short_name os;
         "📌 Nombre completo: " ++ long_name os;
         nl ++ "🔍 Verificando conexión a dominio...";
         nl ++ str_mul "=" 60;
         "RESULTADOS:";
         str_mul "=" 60;
         if bool_decide (join_label os = "Domain")
         then "✅ Esta PC ESTÁ unida a un dominio"
         else "❌ Esta PC NO está en un dominio";
         (if bool_decide (join_label os = "Domain")
          then "   Dominio: " else "   Workgroup: ") ++ langroup info;
         nl ++ "Tipo de conexión: " ++ join_label os;
         str_mul "=" 60] |}).
Proof.
  intros Hinfo.
  unfold run_main, main, mbind, Script_bind, print, call, new_checker.
  cbn [world stdout app].
  rewrite get_computer_name_eq. cbn [world stdout app].
  rewrite get_full_computer_name_eq. cbn [world stdout app].
  rewrite (is_domain_joined_stores _ _ _ Hinfo). cbn [world stdout app].
  rewrite get_domain_info_eq.
  unfold subscript, logged, record_of, mret, Script_ret, call_log.
  rewrite Hinfo.
  destruct (bool_decide (join_label os = "Domain"));
    cbn -[str_mul String.append nl]; by rewrite <- !app_assoc.
Qed.

Lemma main_fails os lg e :
  NetWkstaGetInfo os = inl e →
  run_main os lg =
  (Raise (Exception "'NoneType' object is not subscriptable"),
   {| world :=
        {| self := __init__;
           logger := lg ++ short_name_log os ++ long_name_log os
                        ++ call_log os call_is_domain_joined (fresh lg)
                        ++ [not_yet_queried] |};
      stdout :=
        [str_mul "=" 60;
         "VERIFICADOR DE DOMINIO - Prueba";
         str_mul "=" 60;
         nl ++ "📌 Nombre de la PC: " ++ short_name os;
         "📌 Nombre completo: " ++ long_name os;
         nl ++ "🔍 Verificando conexión a dominio...";
         nl ++ str_mul "=" 60;
         "RESULTADOS:";
         str_mul "=" 60;
         "❌ Esta PC NO está en un dominio"] |}).
Proof.
  intros Hinfo.
  unfold run_main, main, mbind, Script_bind, print, call, new_checker.
  cbn [world stdout app].
  rewrite get_computer_name_eq. cbn [world stdout app].
  rewrite get_full_computer_name_eq. cbn [world stdout app].
  rewrite (is_domain_joined_fails _ _ _ Hinfo). cbn [world stdout app].
  rewrite get_domain_info_eq.
  unfold subscript, logged, mret, Script_ret, call_log.
  rewrite Hinfo.
  cbn -[str_mul String.append nl]. by rewrite <- !app_assoc.
Qed.

(** X11. Run as a script, the module ends with an uncaught [TypeError]
    exactly when the workstation-information call raises: the script
    subscripts what [get_domain_info] returned without testing it for
    [None].  By then it has printed ten lines, the last one the verdict
    that the machine is not in a domain. *)
Theorem main_raises_iff os lg :
  ((∃ e, (run_main os lg).1 = Raise e) ↔ fails (NetWkstaGetInfo os))
  ∧ (fails (NetWkstaGetInfo os) →
     (run_main os lg).1 =
       Raise (Exception "'NoneType' object is not subscriptable")
     ∧ length (stdout (run_main os lg).2) = 10%nat
     ∧ last (stdout (run_main os lg).2) =
         Some "❌ Esta PC NO está en un dominio").
Proof.
  destruct (NetWkstaGetInfo os) as [e|info] eqn:Hinfo.
  - rewrite (main_fails _ _ _ Hinfo). simpl. split.
    + split; [by exists e|by eexists].
    + done.
  - rewrite (main_stores _ _ _ Hinfo). simpl. split.
    + split; [by intros [? ?]|by intros [? ?]].
    + by intros [? ?].
Qed.

Lemma main_raises_iff_witness :
  fails (NetWkstaGetInfo os_no_wksta)
  ∧ (run_main os_no_wksta []).1 =
      Raise (Exception "'NoneType' object is not subscriptable")
  ∧ length (stdout (run_main os_no_wksta []).2) = 10%nat
  ∧ last (stdout (run_main os_no_wksta []).2) =
      Some "❌ Esta PC NO está en un dominio".
Proof.
  assert (fails (NetWkstaGetInfo os_no_wksta)) as Hfail by (by eexists).
  split; [exact Hfail|].
  exact (proj2 (main_raises_iff os_no_wksta []) Hfail).
Defined.



(** ** The record is never cleared *)

(** X13. No method sets the attribute back to [None]: once a checker holds
    a record it holds one after every further sequence of calls, failed
    queries included. *)
Theorem record_is_never_cleared cs w :
  is_Some (domain_info (self w)) →
  is_Some (domain_info (self (run_calls cs w))).
Proof. intros Hw. apply run_calls_present. by left. Qed.

Lemma record_is_never_cleared_witness :
  is_Some (domain_info (self (is_domain_joined os_corp (fresh [])).2))
  ∧ is_Some (domain_info (self
       (run_calls failed_then_name (is_domain_joined os_corp (fresh [])).2))).
Proof.
  assert (is_Some (domain_info
            (self (is_domain_joined os_corp (fresh [])).2))) as Hw
    by (by eexists).
  split; [exact Hw|].
  exact (record_is_never_cleared failed_then_name _ Hw).
Defined.
